(** * ai_reporter.py: FDA device recall reporter

    A shallow embedding of [03_query_ai/ai_reporter.py]: the script queries
    the FDA recall endpoint, loads the records in a pandas DataFrame, counts
    them by root cause, month, firm and status, renders a text summary, asks
    a chat completion for a report and writes it to [report.md].

    The script is straight-line code over two libraries.  Their calls are
    modelled by what they do on the data the script feeds them:
    - a Python [str] is a [string], one character per code point;
    - a DataFrame is a row count and named columns of cells;
    - an exception ends the run: every stage returns a [result];
    - what [sort_values] does with rows of equal count is the business of
      the sorting routine behind it: [aggregate_with] takes the routine as
      a parameter, and [aggregate] is the aggregator with a routine that
      keeps such rows in place, of which the theorems on the tables use
      only that it permutes the rows into descending counts;
    - the outside world (environment, the two HTTP replies, the file
      system) is a record the run reads, and the run returns the list of
      the effects it performed. *)

From HB Require Import structures.
From mathcomp Require Import boot.
From Stdlib Require Import Strings.String Strings.Ascii NArith.BinNat ZArith.BinInt.
From Stdlib Require Import Numbers.DecimalString.

Set Warnings "-notation-overridden,-rewrite-rw".
Set Implicit Arguments.
Unset Strict Implicit.
Unset Printing Implicit Defensive.

Local Open Scope string_scope.

(** ** Python strings *)

HB.instance Definition _ := hasDecEq.Build string String.eqb_spec.

(** [s1 <= s2] on [str]: lexicographic on code points. *)
Definition str_le : rel string := String.leb.
Definition str_lt : rel string := String.ltb.

(** [s[:n]] *)
Definition str_slice_to (n : nat) (s : string) : string := String.substring 0 n s.

(** [len(s)] *)
Definition len (s : string) : nat := String.length s.

(** [str(n)] for a non-negative [int] *)
Definition str_of_nat (n : nat) : string :=
  NilEmpty.string_of_uint (Nat.to_uint n).

(** ** Exceptions and results *)

Inductive exn : Type :=
| ValueError (msg : string)
| Exception (msg : string)
| KeyError (key : string)
| KeyErrorInt (key : nat)
| IndexError
| TypeError
| HTTPError (status : Z)
| JSONDecodeError
| RequestException
| OSError.

Inductive result (A : Type) : Type :=
| Ok (a : A)
| Raise (e : exn).
Arguments Ok {A} a.
Arguments Raise {A} e.

Definition bind {A B : Type} (r : result A) (k : A -> result B) : result B :=
  match r with
  | Ok a => k a
  | Raise e => Raise e
  end.

Declare Scope result_scope.
Delimit Scope result_scope with result.
Notation "x <- r ;; k" := (bind r (fun x => k))
  (at level 100, r at next level, right associativity) : result_scope.

Definition is_ok {A : Type} (r : result A) : bool :=
  if r is Ok _ then true else false.

(** ** Records and DataFrames *)

(** A cell of an object column: a string, [None] (a JSON null) or [NaN]
    (the key is missing from that record). *)
Inductive cell : Type :=
| Str (s : string)
| PyNone
| NaN.

Definition cell_code (x : cell) : option (option string) :=
  match x with
  | Str s => Some (Some s)
  | PyNone => Some None
  | NaN => None
  end.

Definition cell_decode (o : option (option string)) : cell :=
  match o with
  | Some (Some s) => Str s
  | Some None => PyNone
  | None => NaN
  end.

Definition cell_codeK : cancel cell_code cell_decode :=
  fun x => match x with Str _ => erefl | PyNone => erefl | NaN => erefl end.

HB.instance Definition _ := Equality.copy cell (can_type cell_codeK).

(** [pd.isna(x)] *)
Definition isna (x : cell) : bool :=
  if x is Str _ then false else true.

(** One element of [data["results"]]: a JSON object whose values are
    strings or null, its members in the order of the text.  For a name that
    occurs more than once the decoded [dict] keeps the place of the first
    member and the value of the last. *)
Definition record : Type := seq (string * option string).

(** [d.get(c)] on the decoded object: the last binding of [c]. *)
Definition record_find (r : record) (c : string) : option (option string) :=
  omap snd (ohead (rev [seq kv <- r | kv.1 == c])).

(** The cell [pd.DataFrame(records)] stores for record [r] in column [c]:
    the string, [None] for a JSON null, [NaN] for a missing key.  A null is
    kept as [None] in an object column, as pandas 2 has it; pandas 3 stores
    [NaN] in a column of strings.  Grouping drops the two alike, only the
    text of a sample line tells them apart. *)
Definition record_get (r : record) (c : string) : cell :=
  match record_find r c with
  | Some (Some s) => Str s
  | Some None => PyNone
  | None => NaN
  end.

(** A DataFrame with a default range index: [nrows] rows and named columns,
    each column holding one cell per row. *)
Record DataFrame : Type := mkDF {
  nrows : nat;
  cols : seq (string * seq cell)
}.

(** [df.columns] *)
Definition df_columns (df : DataFrame) : seq string := [seq kv.1 | kv <- cols df].

(** First occurrences of the elements of [s], in order. *)
Definition unique (s : seq string) : seq string := rev (undup (rev s)).

(** [pd.DataFrame(records)] on a list of dicts: the columns are the keys in
    order of first appearance; a record without the key gets [NaN]. *)
Definition DataFrame_of_records (records : seq record) : DataFrame :=
  let columns := unique (flatten [seq [seq kv.1 | kv <- r] | r <- records]) in
  mkDF (size records) [seq (c, [seq record_get r c | r <- records]) | c <- columns].

(** [df[c]]: the column, [KeyError] when there is none of that name. *)
Definition df_getitem (df : DataFrame) (c : string) : result (seq cell) :=
  match [seq kv <- cols df | kv.1 == c] with
  | kv :: _ => Ok kv.2
  | [::] => Raise (KeyError c)
  end.

(** [df[names].copy()]: the listed columns, [KeyError] when one is missing. *)
Definition df_select (df : DataFrame) (names : seq string) : result DataFrame :=
  match [seq c <- names | c \notin df_columns df] with
  | c :: _ => Raise (KeyError c)
  | [::] =>
      Ok (mkDF (nrows df)
            [seq (c, if df_getitem df c is Ok v then v else [::]) | c <- names])
  end.

(** [df[c] = v]: replaces the column of that name, or appends a new one. *)
Definition df_setitem (df : DataFrame) (c : string) (v : seq cell) : DataFrame :=
  if c \in df_columns df
  then mkDF (nrows df) [seq if kv.1 == c then (c, v) else kv | kv <- cols df]
  else mkDF (nrows df) (rcons (cols df) (c, v)).

(** [len(df)] *)
Definition df_len (df : DataFrame) : nat := nrows df.

(** [series.str[:n]] on a column that holds a string: slices the strings,
    leaves missing values missing.  The query of the script selects the
    recalls on their initiation date, so the date column holds strings; on
    a column without any string that pandas inferred as numeric (a null in
    one record, no key in another) the accessor is refused with
    [AttributeError], a case left out here. *)
Definition str_slice_col (n : nat) (v : seq cell) : seq cell :=
  [seq if x is Str s then Str (str_slice_to n s) else x | x <- v].

(** The non-missing values of a column ([dropna]). *)
Definition dropna (v : seq cell) : seq string :=
  pmap (fun x => if x is Str s then Some s else None) v.

(** ** Count tables *)

(** The frame [reset_index(name="count")] returns: a key column and a
    [count] column, row by row. *)
Definition table : Type := seq (string * nat).

(** [df.groupby(c).size().reset_index(name="count")].  [groupby] has
    [sort=True] and [dropna=True]: one row per distinct non-missing key, the
    keys in ascending order, each with the number of rows holding it. *)
Definition size_by_key (v : seq cell) : table :=
  let keys := dropna v in
  [seq (k, count_mem k keys) | k <- sort str_le (undup keys)].

Definition groupby_size (df : DataFrame) (c : string) : result table :=
  (v <- df_getitem df c ;; Ok (size_by_key v))%result.

(** [t.sort_values("count", ascending=False)].  For a descending sort pandas
    reverses the rows, argsorts them ascending and reverses the outcome.
    The script asks for the default kind of argsort, which promises nothing
    on rows of equal count: what becomes of them depends on the sorting
    routine at hand.  This is the outcome with a routine that keeps them in
    place; [aggregate_with] below takes any routine. *)
Definition sort_values_count_desc (t : table) : table :=
  rev (sort (fun a b => a.2 <= b.2) (rev t)).

(** [t.sort_values(key_column)], ascending. *)
Definition sort_values_key (t : table) : table :=
  sort (fun a b => str_le a.1 b.1) t.

(** [t.head(n)] *)
Definition head (n : nat) (A : Type) (t : seq A) : seq A := take n t.
Arguments head n {A} t.

(** [df.head(n)] *)
Definition df_head (n : nat) (df : DataFrame) : DataFrame :=
  mkDF (minn n (nrows df)) [seq (kv.1, take n kv.2) | kv <- cols df].

(** [df.iterrows()]: each row as a Series indexed by the column names. *)
Definition row : Type := seq (string * cell).

Definition iterrows (df : DataFrame) : seq row :=
  [seq [seq (kv.1, nth NaN kv.2 i) | kv <- cols df] | i <- iota 0 (nrows df)].

(** [row.get(key, default)]: the default only when the index has no [key]. *)
Definition row_get (r : row) (key : string) (default : cell) : cell :=
  match [seq kv <- r | kv.1 == key] with
  | kv :: _ => kv.2
  | [::] => default
  end.

(** ** 2. Process data (script lines 70-120) *)

Definition cols_of_interest : seq string :=
  [:: "recall_number"; "event_date_initiated"; "product_code";
      "root_cause_description"; "recalling_firm"; "recall_status";
      "product_description"].

Definition existing_cols (recalls : DataFrame) : seq string :=
  [seq c <- cols_of_interest | c \in df_columns recalls].

Record aggregates : Type := mkAgg {
  recalls_clean : DataFrame;
  root_cause_counts : table;
  monthly_counts : table;
  firm_counts : table;
  status_counts : table
}.

Section AggregateWith.

(** What [sort_values("count", ascending=False)] returns with the sorting
    routine at hand. *)
Variable sort_by_count : table -> table.

Definition aggregate_with (recalls : DataFrame) : result aggregates :=
  (clean0 <- df_select recalls (existing_cols recalls) ;;
   rc <- groupby_size clean0 "root_cause_description" ;;
   let root_cause_counts := head 10 (sort_by_count rc) in
   dates <- df_getitem clean0 "event_date_initiated" ;;
   let clean := df_setitem clean0 "month" (str_slice_col 7 dates) in
   mc <- groupby_size clean "month" ;;
   let monthly_counts := sort_values_key mc in
   fc <- groupby_size clean "recalling_firm" ;;
   let firm_counts := head 10 (sort_by_count fc) in
   sc <- groupby_size clean "recall_status" ;;
   let status_counts := sort_by_count sc in
   Ok (mkAgg clean root_cause_counts monthly_counts firm_counts status_counts))%result.

End AggregateWith.

Definition aggregate : DataFrame -> result aggregates :=
  aggregate_with sort_values_count_desc.

(** ** 2.3 Format data (script lines 126-152) *)

Definition nl : string := String (ascii_of_nat 10) "".

(** [f"{desc}"] for what a cell can hold. *)
Definition format_cell (x : cell) : string :=
  match x with
  | Str s => s
  | PyNone => "None"
  | NaN => "nan"
  end.

(** The body of the sample loop up to the formatting: the value of [desc]
    when the line is appended. *)
Definition sample_desc (r : row) : cell :=
  let desc := row_get r "product_description" (Str "N/A") in
  match desc with
  | Str s => if 200 < len s then Str (str_slice_to 200 s ++ "...") else desc
  | _ => desc
  end.

Definition sample_line (r : row) : string :=
  "- " ++ format_cell (sample_desc r) ++ nl.

Section Formatter.

(** [t.to_string(index=False)] for a table with the given key column.  The
    layout pandas gives the two columns is left open. *)
Variable to_string : string -> table -> string.

Definition data_summary_head (a : aggregates) : string :=
  nl ++ "FDA DEVICE RECALL DATA - 2024 SUMMARY" ++ nl ++
  "======================================" ++ nl ++
  "Total Recalls: " ++ str_of_nat (df_len (recalls_clean a)) ++ nl ++
  nl ++
  "TOP 10 ROOT CAUSES:" ++ nl ++
  to_string "root_cause_description" (root_cause_counts a) ++ nl ++
  nl ++
  "MONTHLY RECALL COUNTS:" ++ nl ++
  to_string "month" (monthly_counts a) ++ nl ++
  nl ++
  "TOP 10 RECALLING FIRMS:" ++ nl ++
  to_string "recalling_firm" (firm_counts a) ++ nl ++
  nl ++
  "RECALL STATUS BREAKDOWN:" ++ nl ++
  to_string "recall_status" (status_counts a) ++ nl ++
  nl ++
  "SAMPLE PRODUCT DESCRIPTIONS (first 5):" ++ nl.

Definition data_summary (a : aggregates) : string :=
  foldl (fun acc r => acc ++ sample_line r) (data_summary_head a)
    (iterrows (df_head 5 (recalls_clean a))).

End Formatter.

(** ** Decoded JSON and the two HTTP replies *)

Unset Elimination Schemes.
Inductive json : Type :=
| JNull
| JBool (b : bool)
| JNum (z : Z)
| JStr (s : string)
| JArr (l : seq json)
| JObj (m : seq (string * json)).
Set Elimination Schemes.

(** [j[k]] for a string key: the last member of that name, as the decoder
    keeps it. *)
Definition getitem_key (j : json) (k : string) : result json :=
  match j with
  | JObj m =>
      match rev [seq kv <- m | kv.1 == k] with
      | kv :: _ => Ok kv.2
      | [::] => Raise (KeyError k)
      end
  | _ => Raise TypeError
  end.

(** [j[0]] *)
Definition getitem_0 (j : json) : result json :=
  match j with
  | JArr (x :: _) => Ok x
  | JArr [::] => Raise IndexError
  | JObj _ => Raise (KeyErrorInt 0)
  | JStr (String c _) => Ok (JStr (String c ""))
  | JStr EmptyString => Raise IndexError
  | _ => Raise TypeError
  end.

(** A reply of [requests]: the status, the raw text, and the decoded body
    ([None] when [.json()] cannot decode it). *)
Record response (B : Type) : Type := mkResponse {
  status_code : Z;
  text : string;
  body : option B
}.

(** [r.json()] *)
Definition response_json (B : Type) (r : response B) : result B :=
  if body r is Some b then Ok b else Raise JSONDecodeError.

(** [r.raise_for_status()]: raises on 4xx and 5xx. *)
Definition raise_for_status (B : Type) (r : response B) : result unit :=
  if (400 <=? status_code r)%Z && (status_code r <? 600)%Z
  then Raise (HTTPError (status_code r))
  else Ok tt.

(** The decoded FDA payload: [data["results"]] when there is such a key. *)
Record fda_data : Type := mkFda { results : option (seq record) }.

(** What a run reads from outside. *)
Record world : Type := mkWorld {
  getenv : string -> option string;
  fda_get : result (response fda_data);
  openai_post : string -> result (response json);
  open_ok : bool;
  write_ok : bool
}.

(** What a run does to the outside. *)
Inductive effect : Type :=
| HttpGet (url : string) (api_key : string)
| HttpPost (url : string) (api_key : string) (prompt : string)
| FileOpen (path : string)
| FileWrite (path : string) (content : string).

Definition is_network (e : effect) : bool :=
  match e with
  | HttpGet _ _ | HttpPost _ _ _ => true
  | _ => false
  end.

Definition is_file (e : effect) : bool :=
  match e with
  | FileOpen _ | FileWrite _ _ => true
  | _ => false
  end.

(** A program: the effects performed so far and how it ended. *)
Definition prog (A : Type) : Type := (seq effect * result A)%type.

Definition ret {A : Type} (a : A) : prog A := ([::], Ok a).
Definition lift {A : Type} (r : result A) : prog A := ([::], r).
Definition emit (e : effect) : prog unit := ([:: e], Ok tt).

Definition pbind {A B : Type} (m : prog A) (k : A -> prog B) : prog B :=
  match m with
  | (t, Ok a) => let: (t', r) := k a in (cat t t', r)
  | (t, Raise e) => (t, Raise e)
  end.

Declare Scope prog_scope.
Delimit Scope prog_scope with prog.
Notation "x <- m ;; k" := (pbind m (fun x => k))
  (at level 100, m at next level, right associativity) : prog_scope.
Notation "m ;;; k" := (pbind m (fun _ => k))
  (at level 100, right associativity) : prog_scope.

(** ** The script, top to bottom *)

Definition base_url : string := "https://api.fda.gov/device/recall.json".
Definition openai_url : string := "https://api.openai.com/v1/chat/completions".
Definition report_path : string := "03_query_ai/report.md".

(** [not x] for the value of [os.getenv]: [None] and the empty string. *)
Definition py_not (x : option string) : bool :=
  match x with
  | None => true
  | Some s => s == ""
  end.

Definition str_of_Z (z : Z) : string := NilEmpty.string_of_int (Z.to_int z).

(** 0.2 Load environment variables (lines 26-33). *)
Definition load_credentials (w : world) : result (string * string) :=
  let FDA_API_KEY := getenv w "API_KEY" in
  let OPENAI_API_KEY := getenv w "OPENAI_API_KEY" in
  if py_not FDA_API_KEY
  then Raise (ValueError "API_KEY not found in .env file. Please add your FDA API key.")
  else if py_not OPENAI_API_KEY
  then Raise (ValueError "OPENAI_API_KEY not found in .env file. Please add your OpenAI API key.")
  else Ok (odflt "" FDA_API_KEY, odflt "" OPENAI_API_KEY).

(** 1. Query FDA API (lines 53-65): what the script makes of the reply. *)
Definition fda_frame (w : world) : result DataFrame :=
  (response <- fda_get w ;;
   if ~~ (status_code response =? 200)%Z
   then Raise (Exception ("FDA API request failed with status " ++
                            str_of_Z (status_code response) ++ ": " ++
                            text response))
   else
     data <- response_json response ;;
     if results data is Some rs then Ok (DataFrame_of_records rs)
     else Raise (KeyError "results"))%result.

Definition query_fda (w : world) (key : string) : prog DataFrame :=
  (emit (HttpGet base_url key) ;;; lift (fda_frame w))%prog.

(** 3.1 Design the prompt (lines 169-182). *)
Definition prompt (data_summary : string) : string :=
  "You are a data analyst generating a brief executive report on FDA device recalls." ++ nl ++
  nl ++
  "Based on the following 2024 FDA device recall data, generate a concise report with these sections:" ++ nl ++
  nl ++
  "1. **Overview**: A 2-3 sentence summary of the overall recall landscape for 2024." ++ nl ++
  "2. **Key Trends**: 3-5 bullet points identifying the most notable trends (monthly patterns, common root causes, frequent recalling firms)." ++ nl ++
  "3. **Top Concerns**: 2-3 bullet points highlighting the most significant root causes or product categories that warrant attention." ++ nl ++
  "4. **Recommendations**: 2-3 bullet points suggesting actions for device manufacturers or regulators based on the data." ++ nl ++
  nl ++
  "Keep the total report under 300 words. Use clear, professional language suitable for a regulatory audience." ++ nl ++
  nl ++
  "DATA:" ++ nl ++
  data_summary ++ nl.

(** 3.3 [result["choices"][0]["message"]["content"]] (line 220). *)
Definition completion_field (payload : json) : result json :=
  (choices <- getitem_key payload "choices" ;;
   choice <- getitem_0 choices ;;
   message <- getitem_key choice "message" ;;
   getitem_key message "content")%result.

(** 3.2-3.3 What the script makes of the reply to the POST (lines 209-220). *)
Definition openai_report (w : world) (p : string) : result json :=
  (ai_response <- openai_post w p ;;
   _ <- raise_for_status ai_response ;;
   payload <- response_json ai_response ;;
   completion_field payload)%result.

Definition ask_openai (w : world) (key : string) (p : string) : prog json :=
  (emit (HttpPost openai_url key p) ;;; lift (openai_report w p))%prog.

(** 4. Save the report (lines 233-234).  [open(..., "w")] creates or
    truncates the file before anything is written; [f.write] takes a [str]
    only. *)
Definition save_report (w : world) (report : json) : prog unit :=
  (_ <- lift (if open_ok w then Ok tt else Raise OSError) ;;
   emit (FileOpen report_path) ;;;
   content <- lift (if report is JStr s then Ok s else Raise TypeError) ;;
   _ <- lift (if write_ok w then Ok tt else Raise OSError) ;;
   emit (FileWrite report_path content))%prog.

Section Script.

Variable to_string : string -> table -> string.

Definition run (w : world) : prog unit :=
  (keys <- lift (load_credentials w) ;;
   recalls <- query_fda w keys.1 ;;
   a <- lift (aggregate recalls) ;;
   let summary := data_summary to_string a in
   report <- ask_openai w keys.2 (prompt summary) ;;
   save_report w report)%prog.

(** The stages up to the summary, on records already fetched. *)
Definition summarize (records : seq record) : result string :=
  (a <- aggregate (DataFrame_of_records records) ;;
   Ok (data_summary to_string a))%result.

End Script.

(** ** Vocabulary of the properties *)

(** The column [pd.DataFrame(records)] holds for field [c]. *)
Definition column_of (records : seq record) (c : string) : seq cell :=
  [seq record_get r c | r <- records].

(** Some record carries the key [c]. *)
Definition has_field (records : seq record) (c : string) : bool :=
  has (fun r => c \in [seq kv.1 | kv <- r]) records.

(** The month cell of a record: the first 7 characters of its date. *)
Definition record_month (r : record) : cell :=
  if record_get r "event_date_initiated" is Str s
  then Str (str_slice_to 7 s)
  else record_get r "event_date_initiated".

Definition table_keys (t : table) : seq string := [seq e.1 | e <- t].

(** The sum of the [count] column. *)
Definition total_count (t : table) : nat := sumn [seq e.2 | e <- t].

(** Row orders: by count, descending; by key, ascending. *)
Definition by_count_desc : rel (string * nat) := fun a b => b.2 <= a.2.
Definition by_key_asc : rel (string * nat) := fun a b => str_lt a.1 b.1.



(** Some record holds a string under the date field. *)
Definition has_string_date (records : seq record) : bool :=
  has (fun r => ~~ isna (record_get r "event_date_initiated")) records.

(** The frame the script calls [recalls_clean] once [month] is added. *)
Definition clean_frame (records : seq record) : DataFrame :=
  mkDF (size records)
    (rcons [seq (c, column_of records c)
           | c <- existing_cols (DataFrame_of_records records)]
       ("month", [seq record_month r | r <- records])).

(** The four tables, when every grouped column is there. *)
Definition tables_with (sort_by_count : table -> table)
    (records : seq record) : aggregates :=
  mkAgg (clean_frame records)
    (head 10 (sort_by_count
                (size_by_key (column_of records "root_cause_description"))))
    (sort_values_key (size_by_key [seq record_month r | r <- records]))
    (head 10 (sort_by_count
                (size_by_key (column_of records "recalling_firm"))))
    (sort_by_count (size_by_key (column_of records "recall_status"))).

Definition tables_of : seq record -> aggregates :=
  tables_with sort_values_count_desc.


(** Table [t] has exactly one row per distinct non-missing value of [f]. *)
Definition one_row_per_value (records : seq record) (f : record -> cell)
    (t : table) : Prop :=
  [/\ uniq (table_keys t),
      (forall k, (k \in table_keys t) = has (fun r => f r == Str k) records) &
      size t = size (undup (dropna [seq f r | r <- records]))].

(** ** Sample inputs *)

Definition recall (root_cause date firm status : option string) : record :=
  [:: ("root_cause_description", root_cause); ("event_date_initiated", date);
      ("recalling_firm", firm); ("recall_status", status)].

(** Three recalls of one firm, all ongoing. *)
Definition acme_records : seq record :=
  [:: recall (Some "Process control") (Some "2024-03-01") (Some "Acme Devices") (Some "Ongoing");
      recall (Some "Device Design") (Some "2024-01-09") (Some "Acme Devices") (Some "Ongoing");
      recall (Some "Device Design") (Some "2024-01-20") (Some "Acme Devices") (Some "Ongoing")].


(** Two recalls, the second with a null status. *)
Definition null_status_records : seq record :=
  [:: recall (Some "Device Design") (Some "2024-03-01") (Some "Acme Devices") (Some "Ongoing");
      recall (Some "Device Design") (Some "2024-01-09") (Some "Acme Devices") None].

(** One recall without a root cause. *)
Definition no_root_cause_records : seq record :=
  [:: [:: ("event_date_initiated", Some "2024-01-05");
          ("recalling_firm", Some "Acme Devices");
          ("recall_status", Some "Ongoing")]].

(** Two recalls, only the first with a product description. *)
Definition missing_description_records : seq record :=
  [:: rcons (recall (Some "Device Design") (Some "2024-03-01")
               (Some "Acme Devices") (Some "Ongoing"))
        ("product_description", Some "Pump");
      recall (Some "Device Design") (Some "2024-01-09")
        (Some "Acme Devices") (Some "Ongoing")].

(** The environment with both keys set. *)
Definition full_env (name : string) : option string :=
  if name == "API_KEY" then Some "fda-key"
  else if name == "OPENAI_API_KEY" then Some "openai-key"
  else None.

Definition completion (s : string) : json :=
  JObj [:: ("choices", JArr [:: JObj [:: ("message", JObj [:: ("content", JStr s)])]])].

(** Everything answers as the script expects. *)
Definition world_ok : world :=
  mkWorld full_env
    (Ok (mkResponse 200%Z "" (Some (mkFda (Some acme_records)))))
    (fun _ => Ok (mkResponse 200%Z "" (Some (completion "Report."))))
    true true.

(** The recall endpoint answers 503. *)
Definition world_fda_down : world :=
  mkWorld full_env
    (Ok (mkResponse 503%Z "Service Unavailable" None))
    (fun _ => Ok (mkResponse 200%Z "" (Some (completion "Report."))))
    true true.

(** The completion endpoint answers 200 with a payload without [choices]. *)
Definition world_no_choices : world :=
  mkWorld full_env
    (Ok (mkResponse 200%Z "" (Some (mkFda (Some acme_records)))))
    (fun _ => Ok (mkResponse 200%Z "" (Some (JObj [:: ("error", JStr "overloaded")]))))
    true true.

(** The completion endpoint answers 429. *)
Definition world_rate_limited : world :=
  mkWorld full_env
    (Ok (mkResponse 200%Z "" (Some (mkFda (Some acme_records)))))
    (fun _ => Ok (mkResponse 429%Z "Too Many Requests" None))
    true true.

(** No OpenAI key in the environment. *)
Definition world_no_openai_key : world :=
  mkWorld (fun name => if name == "API_KEY" then Some "fda-key" else None)
    (Ok (mkResponse 200%Z "" (Some (mkFda (Some acme_records)))))
    (fun _ => Ok (mkResponse 200%Z "" (Some (completion "Report."))))
    true true.

(** The recall endpoint answers 200 with an empty list of results. *)
Definition world_no_recalls : world :=
  mkWorld full_env
    (Ok (mkResponse 200%Z "" (Some (mkFda (Some [::])))))
    (fun _ => Ok (mkResponse 200%Z "" (Some (completion "Report."))))
    true true.

(** A table layout to run the script with. *)
Definition no_layout (key_column : string) (t : table) : string := "".

(** The completion endpoint cannot be reached, answers 4xx or 5xx, or sends
    a body that does not decode to a payload holding
    [choices][0][message][content]. *)
Definition generation_fails (w : world) (p : string) : bool :=
  match openai_post w p with
  | Raise _ => true
  | Ok r =>
      ((400 <=? status_code r)%Z && (status_code r <? 600)%Z) ||
      (if body r is Some payload then ~~ is_ok (completion_field payload)
       else true)
  end.

(** What the sample loop makes of a description cell: a string longer than
    200 characters is cut to 200 and an ellipsis, anything else is kept. *)
Definition truncate_desc (x : cell) : cell :=
  sample_desc [:: ("product_description", x)].

(** The bullet lines the sample loop appends, one per row of [head(5)]. *)
Definition sample_lines (a : aggregates) : seq string :=
  [seq sample_line r | r <- iterrows (df_head 5 (recalls_clean a))].

(** The columns every run groups by or slices. *)
Definition grouped_cols : seq string :=
  [:: "root_cause_description"; "event_date_initiated"; "recalling_firm";
      "recall_status"].

(** ** Vocabulary of the run *)

Definition is_write (e : effect) : bool :=
  if e is FileWrite _ _ then true else false.

Definition is_JStr (j : json) : bool :=
  if j is JStr _ then true else false.

(** Everything a complete run does, in order. *)
Definition full_trace (keys : string * string) (p s : string) : seq effect :=
  [:: HttpGet base_url keys.1; HttpPost openai_url keys.2 p;
      FileOpen report_path; FileWrite report_path s].

(** The lines of a text, one after the other. *)
Definition concat_lines (ls : seq string) : string := foldr append "" ls.

(** A description of 201 characters. *)
Definition long_description : string :=
  string_of_list_ascii (nseq 201 "x"%char).

(** One recall with a description of 201 characters. *)
Definition long_description_records : seq record :=
  [:: rcons (recall (Some "Device Design") (Some "2024-03-01")
               (Some "Acme Devices") (Some "Ongoing"))
        ("product_description", Some long_description)].

(** Eleven recalls: root causes "00" to "09" once each, then "10" twice. *)
Definition eleven_causes_records : seq record :=
  [seq recall (Some (String (ascii_of_nat (48 + i %/ 10))
                       (String (ascii_of_nat (48 + i %% 10)) "")))
         (Some "2024-03-01") (Some "Acme Devices") (Some "Ongoing")
  | i <- rcons (iota 0 11) 10].

(** The completion endpoint answers 200 with a null [content]. *)
Definition world_null_content : world :=
  mkWorld full_env
    (Ok (mkResponse 200%Z "" (Some (mkFda (Some acme_records)))))
    (fun _ => Ok (mkResponse 200%Z ""
                    (Some (JObj [:: ("choices",
                       JArr [:: JObj [:: ("message",
                                          JObj [:: ("content", JNull)])]])]))))
    true true.

(** The recall endpoint answers 200 with a payload without [results]. *)
Definition world_no_results : world :=
  mkWorld full_env
    (Ok (mkResponse 200%Z "" (Some (mkFda None))))
    (fun _ => Ok (mkResponse 200%Z "" (Some (completion "Report."))))
    true true.

(** * Properties *)

(** ** The order on strings *)

Section StringOrder.

Lemma ascii_compare_refl (a : ascii) : Ascii.compare a a = Eq.
Proof. exact: N.compare_refl. Qed.

Lemma ascii_compare_lt_trans (a b c : ascii) :
  Ascii.compare a b = Lt -> Ascii.compare b c = Lt -> Ascii.compare a c = Lt.
Proof.
rewrite /Ascii.compare !N.compare_lt_iff.
exact: N.lt_trans.
Qed.

Lemma str_compare_refl (s : string) : String.compare s s = Eq.
Proof. by elim: s => //= a s ->; rewrite ascii_compare_refl. Qed.

Lemma str_compare_lt_trans (s1 s2 s3 : string) :
  String.compare s1 s2 = Lt -> String.compare s2 s3 = Lt ->
  String.compare s1 s3 = Lt.
Proof.
elim: s1 s2 s3 => [|a s1 IH] [|b s2] [|c s3] //=.
case Eab: (Ascii.compare a b) => //; case Ebc: (Ascii.compare b c) => //.
- move: (Ascii.compare_eq_iff _ _ Eab) (Ascii.compare_eq_iff _ _ Ebc) => -> ->.
  by rewrite ascii_compare_refl; exact: IH.
- by move: (Ascii.compare_eq_iff _ _ Eab) => ->; rewrite Ebc.
- by move: (Ascii.compare_eq_iff _ _ Ebc) => <-; rewrite Eab.
- by rewrite (ascii_compare_lt_trans Eab Ebc).
Qed.

Lemma str_le_refl : reflexive str_le.
Proof. by move=> s; rewrite /str_le /String.leb str_compare_refl. Qed.

Lemma str_le_total : total str_le.
Proof.
move=> s1 s2; apply/orP; rewrite /str_le.
by case: (String.leb_total s1 s2) => ->; [left | right].
Qed.

Lemma str_le_anti : antisymmetric str_le.
Proof. by move=> s1 s2 /andP [H1 H2]; exact: String.leb_antisym. Qed.

Lemma str_le_trans : transitive str_le.
Proof.
move=> s2 s1 s3; rewrite /str_le /String.leb.
case E12: (String.compare s1 s2) => // _; case E23: (String.compare s2 s3) => // _.
- by rewrite (String.compare_eq_iff _ _ E12) E23.
- by rewrite (String.compare_eq_iff _ _ E12) E23.
- by rewrite -(String.compare_eq_iff _ _ E23) E12.
- by rewrite (str_compare_lt_trans E12 E23).
Qed.

Lemma str_ltE (s1 s2 : string) : str_lt s1 s2 = str_le s1 s2 && (s1 != s2).
Proof.
rewrite /str_lt /str_le /String.ltb /String.leb.
case E: (String.compare s1 s2) => /=.
- by rewrite (String.compare_eq_iff _ _ E) eqxx.
- by apply/esym/eqP => H; rewrite H str_compare_refl in E.
- by [].
Qed.

Lemma str_lt_trans : transitive str_lt.
Proof.
move=> s2 s1 s3; rewrite /str_lt /String.ltb.
case E12: (String.compare s1 s2) => // _; case E23: (String.compare s2 s3) => // _.
by rewrite (str_compare_lt_trans E12 E23).
Qed.

Lemma str_lt_irr : irreflexive str_lt.
Proof. by move=> s; rewrite str_ltE eqxx andbF. Qed.

End StringOrder.

(** ** Grouping and counting *)

Section Tables.

Implicit Types (v : seq cell) (t : table) (k : string) (n : nat).

Lemma sumn_indicator (x : string) (u : seq string) :
  uniq u -> sumn [seq (x == k : nat) | k <- u] = (x \in u).
Proof.
elim: u => //= y u IH /andP [Hy Hu]; rewrite in_cons IH //.
by case: eqP => [->|_] //=; rewrite (negbTE Hy).
Qed.

Lemma sumn_count_undup (s : seq string) :
  sumn [seq count_mem k s | k <- undup s] = size s.
Proof.
elim: s => //= x s IH.
have split u : sumn [seq (x == k) + count_mem k s | k <- u] =
               sumn [seq (x == k : nat) | k <- u] + sumn [seq count_mem k s | k <- u].
  by elim: u => //= y u ->; rewrite addnACA.
case Hx: (x \in s) => /=.
  by rewrite split sumn_indicator ?undup_uniq // mem_undup Hx IH.
rewrite eqxx split sumn_indicator ?undup_uniq // mem_undup Hx IH.
by rewrite (count_memPn _) ?Hx.
Qed.

Lemma table_keys_size_by_key v :
  table_keys (size_by_key v) = sort str_le (undup (dropna v)).
Proof. by rewrite /table_keys /size_by_key -map_comp map_id_in. Qed.


Lemma size_size_by_key v : size (size_by_key v) = size (undup (dropna v)).
Proof. by rewrite size_map size_sort. Qed.

Lemma total_count_size_by_key v :
  total_count (size_by_key v) = size (dropna v).
Proof.
rewrite /total_count /size_by_key -map_comp -[RHS]sumn_count_undup.
by apply/perm_sumn/perm_map; rewrite perm_sort.
Qed.

Lemma size_by_key_sorted v : sorted by_key_asc (size_by_key v).
Proof.
have Hs: sorted str_lt (table_keys (size_by_key v)).
  rewrite table_keys_size_by_key (sorted_pairwise str_lt_trans).
  have Hle: pairwise str_le (sort str_le (undup (dropna v))).
    by rewrite -(sorted_pairwise str_le_trans); exact/sort_sorted/str_le_total.
  have Hu: uniq (sort str_le (undup (dropna v))) by rewrite sort_uniq undup_uniq.
  move: Hle Hu; rewrite uniq_pairwise.
  move: (sort _ _) => s H1 H2.
  have: pairwise [rel x y | str_le x y && (x != y)] s by rewrite pairwise_relI H1 H2.
  by apply: sub_pairwise => x y /=; rewrite str_ltE.
by move: Hs; rewrite /table_keys sorted_map.
Qed.

End Tables.

(** ** Sorting the tables *)

Section SortValues.

Implicit Types (t : table).

Lemma by_count_desc_trans : transitive by_count_desc.
Proof. by move=> b a c Hba Hcb; exact: leq_trans Hcb Hba. Qed.

Lemma by_key_asc_trans : transitive by_key_asc.
Proof. by move=> b a c; exact: str_lt_trans. Qed.

Lemma sort_values_count_desc_perm t : perm_eq (sort_values_count_desc t) t.
Proof. by rewrite /sort_values_count_desc perm_rev perm_sort perm_rev. Qed.

Lemma mem_sort_values_count_desc t : sort_values_count_desc t =i t.
Proof. exact/perm_mem/sort_values_count_desc_perm. Qed.

Lemma size_sort_values_count_desc t : size (sort_values_count_desc t) = size t.
Proof. exact/perm_size/sort_values_count_desc_perm. Qed.

Lemma sort_values_count_desc_sorted t :
  sorted by_count_desc (sort_values_count_desc t).
Proof.
rewrite /sort_values_count_desc rev_sorted.
by apply: sort_sorted => a b; exact: leq_total.
Qed.

Lemma sort_values_key_sorted t :
  sorted by_key_asc t -> sort_values_key t = t.
Proof.
move=> Ht; apply: sorted_sort.
  by move=> b a c; exact: str_le_trans.
by apply: sub_sorted Ht => a b; rewrite /by_key_asc str_ltE => /andP [].
Qed.

End SortValues.

(** ** Frames *)

Section Frames.

Implicit Types (records : seq record) (df : DataFrame) (c : string).

Lemma mem_unique (s : seq string) : unique s =i s.
Proof. by move=> x; rewrite /unique mem_rev mem_undup mem_rev. Qed.

Lemma mem_columns_of_records records c :
  (c \in df_columns (DataFrame_of_records records)) = has_field records c.
Proof.
rewrite /df_columns /= -map_comp map_id_in // mem_unique /has_field.
by elim: records => //= r records <-; rewrite mem_cat.
Qed.

Lemma df_getitem_map n (names : seq string) (f : string -> seq cell) c :
  df_getitem (mkDF n [seq (c', f c') | c' <- names]) c =
  if c \in names then Ok (f c) else Raise (KeyError c).
Proof.
rewrite /df_getitem /=; elim: names => //= c' names IH.
rewrite in_cons [c == c']eq_sym.
by case: eqP => [->|_] //=.
Qed.

Lemma df_getitem_rcons n (cs : seq (string * seq cell)) c v c' :
  df_getitem (mkDF n (rcons cs (c, v))) c' =
  if c' \in [seq kv.1 | kv <- cs] then df_getitem (mkDF n cs) c'
  else if c == c' then Ok v else Raise (KeyError c').
Proof.
rewrite /df_getitem /=; elim: cs => [|kv cs IH] /=; first by case: eqP.
by rewrite in_cons [c' == kv.1]eq_sym; case: eqP.
Qed.

Lemma df_getitem_records records c :
  df_getitem (DataFrame_of_records records) c =
  if has_field records c then Ok (column_of records c) else Raise (KeyError c).
Proof.
rewrite -mem_columns_of_records /DataFrame_of_records df_getitem_map.
by rewrite /df_columns /= -map_comp map_id_in.
Qed.

Lemma df_select_existing df :
  df_select df (existing_cols df) =
  Ok (mkDF (nrows df)
        [seq (c, if df_getitem df c is Ok v then v else [::])
        | c <- existing_cols df]).
Proof.
rewrite /df_select /existing_cols -filter_predI.
rewrite (@eq_in_filter _ _ pred0) ?filter_pred0 //.
by move=> c _ /=; rewrite andNb.
Qed.

Lemma mem_existing_cols df c :
  (c \in existing_cols df) = (c \in cols_of_interest) && (c \in df_columns df).
Proof. by rewrite mem_filter andbC. Qed.

Lemma existing_cols_records records :
  [seq (c, if df_getitem (DataFrame_of_records records) c is Ok v then v else [::])
  | c <- existing_cols (DataFrame_of_records records)] =
  [seq (c, column_of records c) | c <- existing_cols (DataFrame_of_records records)].
Proof.
apply/eq_in_map => c; rewrite mem_existing_cols mem_columns_of_records.
by case/andP => _ Hc; rewrite df_getitem_records Hc.
Qed.

Lemma str_slice_col_dates records :
  str_slice_col 7 (column_of records "event_date_initiated") =
  [seq record_month r | r <- records].
Proof. by rewrite /str_slice_col /column_of -map_comp. Qed.

End Frames.

(** ** The aggregator on a list of records *)

Section Aggregate.

Implicit Types (records : seq record) (c : string).

Lemma month_notin_selected records :
  "month" \notin [seq kv.1 | kv <- [seq (c, column_of records c)
                                   | c <- existing_cols (DataFrame_of_records records)]].
Proof.
rewrite -map_comp map_id_in //; apply/negP => H.
by move: H; rewrite mem_existing_cols.
Qed.

Lemma df_getitem_selected records c :
  c \in cols_of_interest ->
  df_getitem (mkDF (size records)
                [seq (c', column_of records c')
                | c' <- existing_cols (DataFrame_of_records records)]) c =
  if has_field records c then Ok (column_of records c) else Raise (KeyError c).
Proof.
by move=> Hc; rewrite df_getitem_map mem_existing_cols Hc mem_columns_of_records.
Qed.

Lemma df_getitem_clean records c :
  c \in cols_of_interest ->
  df_getitem (clean_frame records) c =
  if has_field records c then Ok (column_of records c) else Raise (KeyError c).
Proof.
move=> Hc; rewrite /clean_frame df_getitem_rcons df_getitem_selected //.
rewrite -map_comp map_id_in // mem_existing_cols Hc mem_columns_of_records /=.
case: (has_field records c) => //.
by case: eqP => // E; move: Hc; rewrite -E.
Qed.

Lemma df_getitem_clean_month records :
  df_getitem (clean_frame records) "month" = Ok [seq record_month r | r <- records].
Proof.
by rewrite /clean_frame df_getitem_rcons (negbTE (month_notin_selected records)) eqxx.
Qed.

Lemma aggregate_with_records (sort_by_count : table -> table) records :
  aggregate_with sort_by_count (DataFrame_of_records records) =
  if ~~ has_field records "root_cause_description"
  then Raise (KeyError "root_cause_description")
  else if ~~ has_field records "event_date_initiated"
  then Raise (KeyError "event_date_initiated")
  else if ~~ has_field records "recalling_firm"
  then Raise (KeyError "recalling_firm")
  else if ~~ has_field records "recall_status"
  then Raise (KeyError "recall_status")
  else Ok (tables_with sort_by_count records).
Proof.
rewrite /aggregate_with df_select_existing existing_cols_records /=.
rewrite /groupby_size df_getitem_selected //.
case: (has_field records "root_cause_description") => //=.
rewrite df_getitem_selected //.
case: (has_field records "event_date_initiated") => //=.
rewrite /df_setitem /df_columns /= (negbTE (month_notin_selected records)).
rewrite str_slice_col_dates -/(clean_frame records).
rewrite df_getitem_clean_month /= !df_getitem_clean //.
case: (has_field records "recalling_firm") => //=.
by case: (has_field records "recall_status").
Qed.


Lemma aggregate_records records :
  aggregate (DataFrame_of_records records) =
  if ~~ has_field records "root_cause_description"
  then Raise (KeyError "root_cause_description")
  else if ~~ has_field records "event_date_initiated"
  then Raise (KeyError "event_date_initiated")
  else if ~~ has_field records "recalling_firm"
  then Raise (KeyError "recalling_firm")
  else if ~~ has_field records "recall_status"
  then Raise (KeyError "recall_status")
  else Ok (tables_of records).
Proof. exact: aggregate_with_records. Qed.

Lemma aggregate_ok records a :
  aggregate (DataFrame_of_records records) = Ok a -> a = tables_of records.
Proof.
rewrite aggregate_records.
by do 4![case: (has_field _ _) => //=]; case.
Qed.

End Aggregate.

(** ** Counting records through the columns *)

Section Counting.

Variable f : record -> cell.
Implicit Types (records : seq record) (k : string).

Lemma count_mem_dropna records k :
  count_mem k (dropna [seq f r | r <- records]) =
  count (fun r => f r == Str k) records.
Proof.
elim: records => //= r records <-; rewrite /dropna /=.
by case: (f r).
Qed.

Lemma mem_dropna records k :
  (k \in dropna [seq f r | r <- records]) = has (fun r => f r == Str k) records.
Proof. by rewrite has_count -count_mem_dropna -has_count has_pred1. Qed.

Lemma size_dropna records :
  size (dropna [seq f r | r <- records]) + count (fun r => isna (f r)) records =
  size records.
Proof.
elim: records => //= r records <-; rewrite /dropna /=.
by case: (f r) => [s||] /=; rewrite ?addSn ?addnS ?add0n.
Qed.




Lemma size_by_key_one_row records :
  one_row_per_value records f (size_by_key [seq f r | r <- records]).
Proof.
split; first by rewrite table_keys_size_by_key sort_uniq undup_uniq.
  by move=> k; rewrite table_keys_size_by_key mem_sort mem_undup mem_dropna.
exact: size_size_by_key.
Qed.

Lemma one_row_per_value_perm records (t t' : table) :
  perm_eq t' t -> one_row_per_value records f t -> one_row_per_value records f t'.
Proof.
move=> Hp [Hu Hk Hs]; split.
- by rewrite (perm_uniq (perm_map _ Hp)).
- by move=> k; rewrite (perm_mem (perm_map _ Hp)).
- by rewrite (perm_size Hp).
Qed.

End Counting.

(** ** The four tables *)

Section FourTables.

Variables (records : seq record) (a : aggregates).
Hypothesis aggregate_a : aggregate (DataFrame_of_records records) = Ok a.

Let root_cause (r : record) : cell := record_get r "root_cause_description".
Let firm (r : record) : cell := record_get r "recalling_firm".
Let status (r : record) : cell := record_get r "recall_status".

Lemma tables_a : a = tables_of records.
Proof. exact: aggregate_ok aggregate_a. Qed.

Lemma monthly_counts_a :
  monthly_counts a = size_by_key [seq record_month r | r <- records].
Proof. by rewrite tables_a /= sort_values_key_sorted //; exact: size_by_key_sorted. Qed.

Lemma status_counts_perm :
  perm_eq (status_counts a) (size_by_key [seq status r | r <- records]).
Proof. by rewrite tables_a /=; exact: sort_values_count_desc_perm. Qed.



End FourTables.



(** C7.  Whenever the aggregator returns its tables, the month table is in
    strictly ascending order of its keys, and the root-cause, firm and
    status tables are in descending order of their counts. *)
Theorem tables_sorted (records : seq record) (a : aggregates) :
  aggregate (DataFrame_of_records records) = Ok a ->
  [/\ sorted by_key_asc (monthly_counts a),
      sorted by_count_desc (root_cause_counts a),
      sorted by_count_desc (firm_counts a) &
      sorted by_count_desc (status_counts a)].
Proof.
move=> Ha; split.
- by rewrite (monthly_counts_a Ha); exact: size_by_key_sorted.
- by rewrite (tables_a Ha); exact/take_sorted/sort_values_count_desc_sorted.
- by rewrite (tables_a Ha); exact/take_sorted/sort_values_count_desc_sorted.
- by rewrite (tables_a Ha); exact: sort_values_count_desc_sorted.
Qed.

Lemma tables_sorted_witness :
  aggregate (DataFrame_of_records acme_records) = Ok (tables_of acme_records) /\
  monthly_counts (tables_of acme_records) = [:: ("2024-01", 2); ("2024-03", 1)] /\
  root_cause_counts (tables_of acme_records) =
    [:: ("Device Design", 2); ("Process control", 1)] /\
  sorted by_key_asc (monthly_counts (tables_of acme_records)).
Proof.
split; first by vm_compute.
split; first by vm_compute.
split; first by vm_compute.
have Ha: aggregate (DataFrame_of_records acme_records) = Ok (tables_of acme_records)
  by vm_compute.
by case: (tables_sorted Ha).
Defined.

(** C8.  Whenever the aggregator returns its tables, the root-cause and the
    firm table have at most 10 rows, whatever the input, while the status
    and the month table have exactly one row per distinct value, as many
    rows as there are distinct values. *)
Theorem tables_size (records : seq record) (a : aggregates) :
  aggregate (DataFrame_of_records records) = Ok a ->
  [/\ size (root_cause_counts a) <= 10,
      size (firm_counts a) <= 10,
      one_row_per_value records (fun r => record_get r "recall_status")
        (status_counts a) &
      one_row_per_value records record_month (monthly_counts a)].
Proof.
move=> Ha; split.
- by rewrite (tables_a Ha) /= /head size_take_min geq_minl.
- by rewrite (tables_a Ha) /= /head size_take_min geq_minl.
- apply: one_row_per_value_perm (status_counts_perm Ha) _.
  exact: size_by_key_one_row.
- by rewrite (monthly_counts_a Ha); exact: size_by_key_one_row.
Qed.

Lemma tables_size_witness :
  aggregate (DataFrame_of_records acme_records) = Ok (tables_of acme_records) /\
  size (root_cause_counts (tables_of acme_records)) <= 10 /\
  one_row_per_value acme_records (fun r => record_get r "recall_status")
    (status_counts (tables_of acme_records)).
Proof.
split; first by vm_compute.
have Ha: aggregate (DataFrame_of_records acme_records) = Ok (tables_of acme_records)
  by vm_compute.
by case: (tables_size Ha).
Defined.

(** ** Missing values and totals *)

Section Totals.

Implicit Types (records : seq record) (t : table).

Lemma total_count_perm t t' : perm_eq t t' -> total_count t = total_count t'.
Proof. by move=> Hp; exact/perm_sumn/perm_map. Qed.

Lemma total_count_head n t : total_count (head n t) <= total_count t.
Proof.
rewrite /total_count /head -{2}(cat_take_drop n t) map_cat sumn_cat.
exact: leq_addr.
Qed.

Lemma total_count_groups (f : record -> cell) records :
  total_count (size_by_key [seq f r | r <- records]) +
  count (fun r => isna (f r)) records = size records.
Proof. by rewrite total_count_size_by_key size_dropna. Qed.

Lemma isna_record_month (r : record) :
  isna (record_month r) = isna (record_get r "event_date_initiated").
Proof. by rewrite /record_month; case: (record_get r _). Qed.

End Totals.

(** C10.  Whenever the aggregator returns its tables, the reported total is
    the number of records, and a record whose grouping field is missing or
    null is counted in no row of that field's table: the counts of the
    status and of the month table add up to the total less the records
    without the field, those of the capped root-cause and firm tables to at
    most that, so a table's counts can add up to less than the total. *)
Theorem missing_keys_excluded (records : seq record) (a : aggregates) :
  aggregate (DataFrame_of_records records) = Ok a ->
  [/\ df_len (recalls_clean a) = size records,
      total_count (status_counts a) +
        count (fun r => isna (record_get r "recall_status")) records = size records,
      total_count (monthly_counts a) +
        count (fun r => isna (record_get r "event_date_initiated")) records =
        size records,
      total_count (root_cause_counts a) +
        count (fun r => isna (record_get r "root_cause_description")) records <=
        size records &
      total_count (firm_counts a) +
        count (fun r => isna (record_get r "recalling_firm")) records <=
        size records].
Proof.
move=> Ha; split.
- by rewrite (tables_a Ha).
- rewrite (total_count_perm (status_counts_perm Ha)).
  exact: (total_count_groups (fun r => record_get r "recall_status")).
- rewrite (monthly_counts_a Ha) -(total_count_groups record_month records).
  by congr (_ + _); apply: eq_count => r; rewrite isna_record_month.
- rewrite -(total_count_groups (fun r => record_get r "root_cause_description") records).
  rewrite leq_add2r (tables_a Ha) /=.
  apply: leq_trans (total_count_head _ _) _.
  by rewrite (total_count_perm (sort_values_count_desc_perm _)).
- rewrite -(total_count_groups (fun r => record_get r "recalling_firm") records).
  rewrite leq_add2r (tables_a Ha) /=.
  apply: leq_trans (total_count_head _ _) _.
  by rewrite (total_count_perm (sort_values_count_desc_perm _)).
Qed.

Lemma missing_keys_excluded_witness :
  aggregate (DataFrame_of_records null_status_records) =
    Ok (tables_of null_status_records) /\
  status_counts (tables_of null_status_records) = [:: ("Ongoing", 1)] /\
  total_count (status_counts (tables_of null_status_records)) <
    df_len (recalls_clean (tables_of null_status_records)) /\
  df_len (recalls_clean (tables_of null_status_records)) = size null_status_records.
Proof.
split; first by vm_compute.
split; first by vm_compute.
split; first by vm_compute.
have Ha: aggregate (DataFrame_of_records null_status_records) =
         Ok (tables_of null_status_records) by vm_compute.
by case: (missing_keys_excluded Ha).
Defined.

(** ** Rearranging the records *)

Section Permuted.

Implicit Types (records : seq record) (v : seq cell).

Lemma size_by_key_perm v v' :
  perm_eq (dropna v) (dropna v') -> size_by_key v = size_by_key v'.
Proof.
move=> Hp; rewrite /size_by_key.
have ->: sort str_le (undup (dropna v)) = sort str_le (undup (dropna v')).
  apply/perm_sortP; [exact: str_le_total | exact: str_le_trans
                    | exact: str_le_anti | ].
  exact/perm_undup/perm_mem.
by apply: eq_map => k; congr (_, _); move/permP: Hp; apply.
Qed.

Lemma size_by_key_perm_records (f : record -> cell) records records' :
  perm_eq records records' ->
  size_by_key [seq f r | r <- records] = size_by_key [seq f r | r <- records'].
Proof. by move=> Hp; apply: size_by_key_perm; apply/perm_pmap/perm_map. Qed.

End Permuted.

(** ** Rows of equal count *)

Section Ties.

Variable sort_by_count : table -> table.
Implicit Types (records : seq record).


End Ties.




(** ** The run, stage by stage *)

Section Pipeline.

Variable to_string : string -> table -> string.
Implicit Types (w : world) (p : string).

Lemma save_report_cases w report :
  save_report w report =
  if ~~ open_ok w then ([::], Raise OSError)
  else if report is JStr s
       then if write_ok w
            then ([:: FileOpen report_path; FileWrite report_path s], Ok tt)
            else ([:: FileOpen report_path], Raise OSError)
       else ([:: FileOpen report_path], Raise TypeError).
Proof.
rewrite /save_report; case: (open_ok w) => //=.
by case: report => //= s; case: (write_ok w).
Qed.

Lemma run_stages w :
  run to_string w =
  match load_credentials w with
  | Raise e => ([::], Raise e)
  | Ok keys =>
      match fda_frame w with
      | Raise e => ([:: HttpGet base_url keys.1], Raise e)
      | Ok recalls =>
          match aggregate recalls with
          | Raise e => ([:: HttpGet base_url keys.1], Raise e)
          | Ok a =>
              let p := prompt (data_summary to_string a) in
              match openai_report w p with
              | Raise e =>
                  ([:: HttpGet base_url keys.1; HttpPost openai_url keys.2 p],
                   Raise e)
              | Ok report =>
                  ([:: HttpGet base_url keys.1, HttpPost openai_url keys.2 p
                     & (save_report w report).1],
                   (save_report w report).2)
              end
          end
      end
  end.
Proof.
rewrite /run /query_fda /ask_openai.
case: (load_credentials w) => [keys|e] //=.
case: (fda_frame w) => [recalls|e] //=.
case: (aggregate recalls) => [a|e] //=.
case: (openai_report w _) => [report|e] //=.
by case: (save_report w report).
Qed.

Lemma fda_frame_status w response :
  fda_get w = Ok response -> status_code response <> 200%Z ->
  fda_frame w =
  Raise (Exception ("FDA API request failed with status " ++
                      str_of_Z (status_code response) ++ ": " ++ text response)).
Proof. by move=> Hg /Z.eqb_neq Hs; rewrite /fda_frame Hg /= Hs. Qed.

Lemma fda_frame_results w response rs :
  fda_get w = Ok response -> status_code response = 200%Z ->
  body response = Some (mkFda (Some rs)) ->
  fda_frame w = Ok (DataFrame_of_records rs).
Proof. by move=> Hg Hs Hb; rewrite /fda_frame /response_json Hg /= Hs Hb. Qed.

Lemma generation_failsE w p :
  generation_fails w p = ~~ is_ok (openai_report w p).
Proof.
rewrite /generation_fails /openai_report /raise_for_status /response_json.
case: (openai_post w p) => [r|e] //=.
case: (_ && _) => //=.
by case: (body r).
Qed.

End Pipeline.

(** C9.  When the FDA key or the OpenAI key is unset or empty, the run ends
    in a [ValueError] that names the missing key and has performed no effect
    at all: no request was sent, no file touched. *)
Theorem missing_credential_no_request (to_string : string -> table -> string)
    (w : world) :
  py_not (getenv w "API_KEY") || py_not (getenv w "OPENAI_API_KEY") ->
  exists msg, run to_string w = ([::], Raise (ValueError msg)).
Proof.
rewrite run_stages /load_credentials.
case: (py_not (getenv w "API_KEY")) => /=; first by eexists.
by move=> ->; eexists.
Qed.

Lemma missing_credential_no_request_witness :
  py_not (getenv world_no_openai_key "OPENAI_API_KEY") /\
  exists msg, run no_layout world_no_openai_key = ([::], Raise (ValueError msg)).
Proof.
split; first by vm_compute.
by apply: missing_credential_no_request; vm_compute.
Defined.

(** C5.  A run touches the report file only after the credentials, the FDA
    reply, the aggregation and the completion all succeeded.  When the FDA
    endpoint answers with a status other than 200 the run ends in the
    exception carrying status and text, after the GET alone: nothing was
    aggregated, posted or written.  When the completion call fails, answers
    4xx or 5xx, or its payload lacks the completion field, the run ends in
    that error after the GET and the POST alone: no file was opened. *)
Theorem no_file_unless_all_stages_succeed
    (to_string : string -> table -> string) (w : world) :
  [/\ has is_file (run to_string w).1 ->
      exists keys recalls a report,
        [/\ load_credentials w = Ok keys, fda_frame w = Ok recalls,
            aggregate recalls = Ok a &
            openai_report w (prompt (data_summary to_string a)) = Ok report],
      forall keys response,
        load_credentials w = Ok keys -> fda_get w = Ok response ->
        status_code response <> 200%Z ->
        run to_string w =
        ([:: HttpGet base_url keys.1],
         Raise (Exception ("FDA API request failed with status " ++
                             str_of_Z (status_code response) ++ ": " ++
                             text response))) &
      forall keys recalls a,
        load_credentials w = Ok keys -> fda_frame w = Ok recalls ->
        aggregate recalls = Ok a ->
        generation_fails w (prompt (data_summary to_string a)) ->
        exists e,
          run to_string w =
          ([:: HttpGet base_url keys.1;
               HttpPost openai_url keys.2 (prompt (data_summary to_string a))],
           Raise e)].
Proof.
split.
- rewrite run_stages.
  case Hk: (load_credentials w) => [keys|e] //=.
  case Hf: (fda_frame w) => [recalls|e] //=.
  case Ha: (aggregate recalls) => [a|e] //=.
  case Hr: (openai_report w _) => [report|e] //= _.
  by exists keys, recalls, a, report.
- move=> keys response Hk Hg Hs.
  by rewrite run_stages Hk (fda_frame_status Hg Hs).
- move=> keys recalls a Hk Hf Ha; rewrite generation_failsE run_stages Hk Hf Ha /=.
  by case: (openai_report w _) => [report|e] //= _; exists e.
Qed.

Lemma no_file_unless_all_stages_succeed_witness :
  run no_layout world_fda_down =
    ([:: HttpGet base_url "fda-key"],
     Raise (Exception "FDA API request failed with status 503: Service Unavailable")) /\
  (exists e,
     run no_layout world_no_choices =
     ([:: HttpGet base_url "fda-key";
          HttpPost openai_url "openai-key"
            (prompt (data_summary no_layout (tables_of acme_records)))],
      Raise e)) /\
  has is_file (run no_layout world_rate_limited).1 = false.
Proof.
have [_ H2 _] := no_file_unless_all_stages_succeed no_layout world_fda_down.
have [_ _ H3] := no_file_unless_all_stages_succeed no_layout world_no_choices.
split.
  by apply: (H2 ("fda-key", "openai-key") (mkResponse 503%Z "Service Unavailable" None));
     vm_compute.
split; last by vm_compute.
by apply: (H3 ("fda-key", "openai-key") (DataFrame_of_records acme_records)
             (tables_of acme_records)); vm_compute.
Defined.

(** C2, against the code.  With an empty list of results the frame has no
    column, so the first [groupby] raises [KeyError]: the aggregator returns
    no table, no summary is formatted, and a run that fetched an empty list
    ends in that error after the GET. *)
Theorem empty_record_set_raises (to_string : string -> table -> string)
    (w : world) (keys : string * string) (response : response fda_data) :
  load_credentials w = Ok keys -> fda_get w = Ok response ->
  status_code response = 200%Z -> body response = Some (mkFda (Some [::])) ->
  [/\ aggregate (DataFrame_of_records [::]) =
        Raise (KeyError "root_cause_description"),
      summarize to_string [::] = Raise (KeyError "root_cause_description") &
      run to_string w =
        ([:: HttpGet base_url keys.1], Raise (KeyError "root_cause_description"))].
Proof.
move=> Hk Hg Hs Hb; split=> //.
by rewrite run_stages Hk (fda_frame_results Hg Hs Hb).
Qed.

Lemma empty_record_set_raises_witness :
  summarize no_layout [::] = Raise (KeyError "root_cause_description") /\
  run no_layout world_no_recalls =
    ([:: HttpGet base_url "fda-key"], Raise (KeyError "root_cause_description")).
Proof.
have [] := @empty_record_set_raises no_layout world_no_recalls
             ("fda-key", "openai-key")
             (mkResponse 200%Z EmptyString (Some (mkFda (Some [::]))));
  by [vm_compute | ].
Defined.

(** C3, against the code.  When no record carries the root cause, the firm
    or the status field, the projection leaves the column out and the
    aggregator then raises [KeyError] at the first grouped column that is
    missing: it returns no table at all. *)
Theorem absent_field_raises (records : seq record) :
  ~~ [&& has_field records "root_cause_description",
         has_field records "recalling_firm" &
         has_field records "recall_status"] ->
  exists2 c, (c \in grouped_cols) && ~~ has_field records c &
    aggregate (DataFrame_of_records records) = Raise (KeyError c).
Proof.
rewrite aggregate_records.
case H1: (has_field records "root_cause_description") => /=; last first.
  by move=> _; exists "root_cause_description"; rewrite ?H1.
case H2: (has_field records "event_date_initiated") => /=; last first.
  by move=> _; exists "event_date_initiated"; rewrite ?H2.
case H3: (has_field records "recalling_firm") => /=; last first.
  by move=> _; exists "recalling_firm"; rewrite ?H3.
case H4: (has_field records "recall_status") => //= _.
by exists "recall_status"; rewrite ?H4.
Qed.

Lemma absent_field_raises_witness :
  aggregate (DataFrame_of_records no_root_cause_records) =
  Raise (KeyError "root_cause_description").
Proof.
have [c Hc] : exists2 c, (c \in grouped_cols) &&
                ~~ has_field no_root_cause_records c &
                aggregate (DataFrame_of_records no_root_cause_records) =
                Raise (KeyError c).
  by apply: absent_field_raises; vm_compute.
by move=> _; vm_compute.
Defined.

(** ** The sample lines *)

Section Samples.

Implicit Types (records : seq record) (df : DataFrame) (x : cell).

Lemma row_get_map n (cs : seq (string * seq cell)) (g : seq cell -> cell)
    key default :
  row_get [seq (kv.1, g kv.2) | kv <- cs] key default =
  if df_getitem (mkDF n cs) key is Ok v then g v else default.
Proof.
rewrite /row_get /df_getitem /=.
by elim: cs => //= kv cs IH; case: eqP.
Qed.

Lemma iterrows_head n df :
  iterrows (df_head n df) =
  [seq [seq (kv.1, nth NaN (take n kv.2) i) | kv <- cols df]
  | i <- iota 0 (minn n (nrows df))].
Proof. by rewrite /iterrows /df_head /=; apply: eq_map => i; rewrite -map_comp. Qed.

Lemma sample_desc_row (r : row) :
  sample_desc r = truncate_desc (row_get r "product_description" (Str "N/A")).
Proof. by []. Qed.

Lemma truncate_desc_na x : isna x -> truncate_desc x = x.
Proof. by case: x. Qed.

Lemma sample_lines_records records :
  sample_lines (tables_of records) =
  [seq "- " ++ format_cell
         (if has_field records "product_description"
          then truncate_desc (record_get r "product_description")
          else Str "N/A") ++ nl
  | r <- take 5 records].
Proof.
have Et: take 5 records = take (minn 5 (size records)) records.
  case: (leqP 5 (size records)) => Hs //.
  by rewrite take_size take_oversize // ltnW.
rewrite /sample_lines iterrows_head /= -map_comp Et.
rewrite -(@map_nth_iota0 _ [::] records (minn 5 (size records))) ?geq_minr //.
rewrite -map_comp; apply/eq_in_map => i; rewrite mem_iota /= add0n => Hi.
rewrite /sample_line sample_desc_row.
rewrite (row_get_map (size records) _ (fun v => nth NaN (take 5 v) i)).
rewrite df_getitem_clean //.
case: (has_field records "product_description") => //.
have /andP [H5 Hn]: (i < 5) && (i < size records) by rewrite -leq_min.
by rewrite nth_take // (nth_map [::]).
Qed.

End Samples.

(** C4, against the code.  The placeholder is the default of [row.get],
    which is used only when the frame has no [product_description] column.
    Once some record carries the field, a sampled record without it (or
    with a null) is rendered from its missing cell, as [- nan] (or
    [- None]), never as [- N/A]. *)
Theorem missing_description_renders_nan (records : seq record)
    (a : aggregates) (i : nat) :
  aggregate (DataFrame_of_records records) = Ok a ->
  has_field records "product_description" ->
  i < minn 5 (size records) ->
  isna (record_get (nth [::] records i) "product_description") ->
  nth "" (sample_lines a) i =
    "- " ++ format_cell (record_get (nth [::] records i) "product_description")
         ++ nl /\
  nth "" (sample_lines a) i <> "- N/A" ++ nl.
Proof.
move=> Ha Hf Hi Hna.
have /andP [H5 Hn]: (i < 5) && (i < size records) by rewrite -leq_min.
have ->: nth "" (sample_lines a) i =
         "- " ++ format_cell (record_get (nth [::] records i) "product_description")
              ++ nl.
  rewrite (aggregate_ok Ha) sample_lines_records Hf.
  rewrite (nth_map [::]) ?size_take_min // nth_take //.
  by rewrite truncate_desc_na.
split=> //.
by case: (record_get _ _) Hna.
Qed.

Lemma missing_description_renders_nan_witness :
  sample_lines (tables_of missing_description_records) =
    [:: "- Pump" ++ nl; "- nan" ++ nl] /\
  nth "" (sample_lines (tables_of missing_description_records)) 1 <>
    "- N/A" ++ nl.
Proof.
split; first by vm_compute.
have [] // := @missing_description_renders_nan missing_description_records
                (tables_of missing_description_records) 1.
Defined.

(** ** Lengths of strings *)

Section Strings.

Implicit Types (s : string) (n : nat).

Lemma len_append s1 s2 : len (s1 ++ s2) = len s1 + len s2.
Proof. by elim: s1 => //= c s1 ->. Qed.

Lemma len_str_slice_to n s : len (str_slice_to n s) = minn n (len s).
Proof.
rewrite /str_slice_to /len.
elim: n s => [|n IH] [|c s] //=.
by rewrite IH minnSS.
Qed.

Lemma str_append_nil s : s ++ "" = s.
Proof. by elim: s => //= c s ->. Qed.

Lemma str_append_assoc s1 s2 s3 : (s1 ++ s2) ++ s3 = s1 ++ (s2 ++ s3).
Proof. by elim: s1 => //= c s1 ->. Qed.

Lemma truncate_desc_Str s :
  truncate_desc (Str s) =
  Str (if 200 < len s then str_slice_to 200 s ++ "..." else s).
Proof.
have ->: truncate_desc (Str s) =
         if 200 < len s then Str (str_slice_to 200 s ++ "...") else Str s by [].
by case: ifP.
Qed.

Lemma len_truncated s :
  len (if 200 < len s then str_slice_to 200 s ++ "..." else s) =
  if 200 < len s then 203 else len s.
Proof.
case: ifP => // Hs.
by rewrite len_append len_str_slice_to (minn_idPl (ltnW Hs)).
Qed.

End Strings.

(** ** What the sample loop appends *)

Section SampleLoop.

Implicit Types (records : seq record) (r : record) (c : string).

Lemma record_get_Str r c s :
  record_get r c = Str s -> c \in [seq kv.1 | kv <- r].
Proof.
rewrite /record_get /record_find.
elim: r => //= kv r IH; rewrite in_cons [c == _]eq_sym.
by case: eqP.
Qed.

Lemma has_field_nth records i c s :
  i < size records -> record_get (nth [::] records i) c = Str s ->
  has_field records c.
Proof.
move=> Hi /record_get_Str Hc; apply/hasP.
by exists (nth [::] records i); rewrite ?mem_nth.
Qed.

Lemma foldl_append (T : Type) (f : T -> string) (h : string) (rows : seq T) :
  foldl (fun acc x => acc ++ f x) h rows = h ++ concat_lines [seq f x | x <- rows].
Proof.
elim: rows h => [|x rows IH] h /=; first by rewrite str_append_nil.
by rewrite IH str_append_assoc.
Qed.

Lemma size_sample_lines records :
  size (sample_lines (tables_of records)) = minn 5 (size records).
Proof. by rewrite sample_lines_records size_map size_take_min. Qed.

End SampleLoop.

(** The truncation law of the sample loop.  For a sampled record whose
    description is a string of length L, the text after the bullet is the
    description itself when L <= 200, and its first 200 characters followed
    by three dots, 203 characters in all, when L > 200. *)
Theorem description_truncation (records : seq record) (a : aggregates)
    (i : nat) (s : string) :
  aggregate (DataFrame_of_records records) = Ok a ->
  i < minn 5 (size records) ->
  record_get (nth [::] records i) "product_description" = Str s ->
  exists d,
    [/\ nth "" (sample_lines a) i = "- " ++ d ++ nl,
        d = (if 200 < len s then str_slice_to 200 s ++ "..." else s) &
        len d = (if 200 < len s then 203 else len s)].
Proof.
move=> Ha Hi Hs.
have /andP [H5 Hn]: (i < 5) && (i < size records) by rewrite -leq_min.
exists (if 200 < len s then str_slice_to 200 s ++ "..." else s).
split=> //; last exact: len_truncated.
rewrite (aggregate_ok Ha) sample_lines_records (has_field_nth Hn Hs).
by rewrite (nth_map [::]) ?size_take_min // nth_take // Hs truncate_desc_Str.
Qed.

Lemma description_truncation_witness :
  exists d,
    [/\ nth "" (sample_lines (tables_of long_description_records)) 0 =
          "- " ++ d ++ nl,
        d = str_slice_to 200 long_description ++ "..." & len d = 203].
Proof.
have [] // := @description_truncation long_description_records
                (tables_of long_description_records) 0 long_description.
by move=> d [H1 H2 H3]; exists d.
Defined.

(** The placeholder of the sample loop.  When no record carries
    [product_description], every sample line is the bullet followed by
    [N/A], one line per record up to five. *)
Theorem no_description_column_placeholder (records : seq record)
    (a : aggregates) :
  aggregate (DataFrame_of_records records) = Ok a ->
  ~~ has_field records "product_description" ->
  sample_lines a = nseq (minn 5 (size records)) ("- N/A" ++ nl).
Proof.
move=> Ha Hf.
rewrite (aggregate_ok Ha) sample_lines_records (negbTE Hf) -size_take_min.
by elim: (take 5 records) => //= r rs ->.
Qed.

Lemma no_description_column_placeholder_witness :
  sample_lines (tables_of acme_records) = nseq 3 ("- N/A" ++ nl).
Proof.
by apply: (@no_description_column_placeholder acme_records); vm_compute.
Defined.

(** The summary is the header block followed by the sample lines, in the
    order of the records, and there are as many sample lines as records,
    five at most. *)
Theorem summary_is_header_then_samples (to_string : string -> table -> string)
    (records : seq record) (a : aggregates) :
  aggregate (DataFrame_of_records records) = Ok a ->
  data_summary to_string a =
    data_summary_head to_string a ++ concat_lines (sample_lines a) /\
  size (sample_lines a) = minn 5 (size records).
Proof.
move=> Ha; split; first exact: foldl_append.
by rewrite (aggregate_ok Ha) size_sample_lines.
Qed.

Lemma summary_is_header_then_samples_witness :
  data_summary no_layout (tables_of acme_records) =
    data_summary_head no_layout (tables_of acme_records) ++
    concat_lines (sample_lines (tables_of acme_records)) /\
  size (sample_lines (tables_of acme_records)) = 3.
Proof.
by apply: (@summary_is_header_then_samples no_layout acme_records); vm_compute.
Defined.

(** ** Complete and incomplete runs *)

(** A complete run.  With both keys set, a 200 reply holding a list of
    results the aggregator accepts, a completion reply outside 4xx and 5xx
    whose payload holds a string under [choices][0][message][content], and
    a report file that can be opened and written, the run sends the GET
    with the FDA key, posts the prompt built from the summary with the
    OpenAI key, opens the report file and writes exactly that string to
    it. *)
Theorem complete_run_writes_completion (to_string : string -> table -> string)
    (w : world) (k1 k2 : string) (fda_response : response fda_data)
    (rs : seq record) (a : aggregates) (ai_response : response json)
    (payload : json) (s : string) :
  getenv w "API_KEY" = Some k1 -> k1 != "" ->
  getenv w "OPENAI_API_KEY" = Some k2 -> k2 != "" ->
  fda_get w = Ok fda_response -> status_code fda_response = 200%Z ->
  body fda_response = Some (mkFda (Some rs)) ->
  aggregate (DataFrame_of_records rs) = Ok a ->
  openai_post w (prompt (data_summary to_string a)) = Ok ai_response ->
  ~~ ((400 <=? status_code ai_response)%Z && (status_code ai_response <? 600)%Z) ->
  body ai_response = Some payload ->
  completion_field payload = Ok (JStr s) ->
  open_ok w -> write_ok w ->
  run to_string w =
  (full_trace (k1, k2) (prompt (data_summary to_string a)) s, Ok tt).
Proof.
move=> Hk1 Hn1 Hk2 Hn2 Hg Hs Hb Ha Hp Hst Hpb Hc Ho Hw.
rewrite run_stages /load_credentials Hk1 Hk2 /= (negbTE Hn1) (negbTE Hn2).
rewrite (fda_frame_results Hg Hs Hb) Ha /=.
rewrite /openai_report Hp /= /raise_for_status (negbTE Hst) /=.
by rewrite /response_json Hpb /= Hc save_report_cases Ho Hw.
Qed.

Lemma complete_run_writes_completion_witness :
  run no_layout world_ok =
  (full_trace ("fda-key", "openai-key")
     (prompt (data_summary no_layout (tables_of acme_records))) "Report.",
   Ok tt).
Proof.
by apply: (@complete_run_writes_completion no_layout world_ok "fda-key"
             "openai-key" (mkResponse 200%Z EmptyString (Some (mkFda (Some acme_records))))
             acme_records (tables_of acme_records)
             (mkResponse 200%Z EmptyString (Some (completion "Report.")))
             (completion "Report.") "Report.");
   vm_compute.
Defined.

(** A completion that is not a string.  When every stage up to the
    completion succeeded but the content extracted from the payload is not
    a string (a null, say), the report file has already been opened for
    writing, and so created or emptied, when [write] raises [TypeError]:
    nothing is written to it. *)
Theorem non_string_content_opens_file (to_string : string -> table -> string)
    (w : world) (keys : string * string) (recalls : DataFrame)
    (a : aggregates) (report : json) :
  load_credentials w = Ok keys -> fda_frame w = Ok recalls ->
  aggregate recalls = Ok a ->
  openai_report w (prompt (data_summary to_string a)) = Ok report ->
  ~~ is_JStr report -> open_ok w ->
  run to_string w =
  ([:: HttpGet base_url keys.1;
       HttpPost openai_url keys.2 (prompt (data_summary to_string a));
       FileOpen report_path],
   Raise TypeError).
Proof.
move=> Hk Hf Ha Hr Hj Ho.
rewrite run_stages Hk Hf Ha /= Hr save_report_cases Ho /=.
by case: report Hj {Hr}.
Qed.

Lemma non_string_content_opens_file_witness :
  run no_layout world_null_content =
  ([:: HttpGet base_url "fda-key";
       HttpPost openai_url "openai-key"
         (prompt (data_summary no_layout (tables_of acme_records)));
       FileOpen report_path],
   Raise TypeError).
Proof.
by apply: (@non_string_content_opens_file no_layout world_null_content
             ("fda-key", "openai-key") (DataFrame_of_records acme_records)
             (tables_of acme_records) JNull);
   vm_compute.
Defined.

(** A run ends without an error exactly when it has written the report. *)
Theorem run_ok_iff_report_written (to_string : string -> table -> string)
    (w : world) :
  is_ok (run to_string w).2 = has is_write (run to_string w).1.
Proof.
rewrite run_stages.
case: (load_credentials w) => [keys|e] //=.
case: (fda_frame w) => [recalls|e] //=.
case: (aggregate recalls) => [a|e] //=.
case: (openai_report w _) => [report|e] //=.
rewrite save_report_cases.
case: (open_ok w) => //=.
by case: report => //= s; case: (write_ok w).
Qed.

(** The effects of a run, whatever the world, are an initial part of: one
    GET to the recall endpoint, one POST to the completion endpoint, the
    opening of the report file, one write to it.  No request is repeated,
    nothing is posted before the recalls were fetched, and the file is not
    touched before both requests were sent. *)
Theorem run_trace_is_initial_part (to_string : string -> table -> string)
    (w : world) :
  exists keys p s rest,
    full_trace keys p s = ((run to_string w).1 ++ rest)%SEQ.
Proof.
rewrite run_stages.
case: (load_credentials w) => [keys|e] /=; last first.
  by exists (EmptyString, EmptyString), EmptyString, EmptyString; eexists.
case: (fda_frame w) => [recalls|e] /=; last first.
  by exists keys, EmptyString, EmptyString; eexists.
case: (aggregate recalls) => [a|e] /=; last first.
  by exists keys, EmptyString, EmptyString; eexists.
case: (openai_report w _) => [report|e] /=; last first.
  by exists keys, (prompt (data_summary to_string a)), EmptyString; eexists.
rewrite save_report_cases.
case: (open_ok w) => /=; last first.
  by exists keys, (prompt (data_summary to_string a)), EmptyString; eexists.
case: report => [|b|z|s|l|m] /=;
  try by exists keys, (prompt (data_summary to_string a)), EmptyString; eexists.
case: (write_ok w) => /=.
  by exists keys, (prompt (data_summary to_string a)), s, [::].
by exists keys, (prompt (data_summary to_string a)), EmptyString; eexists.
Qed.

(** A 200 reply of the recall endpoint that cannot be used.  When the body
    is not JSON the run ends in the decoder's error, and when the decoded
    payload has no [results] key it ends in [KeyError]; either way after the
    GET alone. *)
Theorem unusable_fda_payload (to_string : string -> table -> string)
    (w : world) (keys : string * string) (response : response fda_data) :
  load_credentials w = Ok keys -> fda_get w = Ok response ->
  status_code response = 200%Z ->
  (body response = None ->
   run to_string w = ([:: HttpGet base_url keys.1], Raise JSONDecodeError)) /\
  (body response = Some (mkFda None) ->
   run to_string w = ([:: HttpGet base_url keys.1], Raise (KeyError "results"))).
Proof.
move=> Hk Hg Hs; rewrite run_stages Hk /fda_frame Hg /= Hs /= /response_json.
by split=> ->.
Qed.

Lemma unusable_fda_payload_witness :
  run no_layout world_no_results =
  ([:: HttpGet base_url "fda-key"], Raise (KeyError "results")).
Proof.
have [_ H] := @unusable_fda_payload no_layout world_no_results
                 ("fda-key", "openai-key")
                 (mkResponse 200%Z EmptyString (Some (mkFda None)))
                 erefl erefl erefl.
exact: H.
Defined.

(** ** More on the four tables *)

Section MoreTables.

Implicit Types (records : seq record) (v : seq cell) (t : table).

Lemma has_field_perm records records' c :
  perm_eq records records' -> has_field records' c = has_field records c.
Proof. by move=> Hp; rewrite /has_field (perm_has _ Hp). Qed.

Lemma head_keeps_largest n t (e e' : string * nat) :
  e \in head n (sort_values_count_desc t) -> e' \in t ->
  e' \notin head n (sort_values_count_desc t) -> e'.2 <= e.2.
Proof.
rewrite -(mem_sort_values_count_desc t) /head.
move: (sort_values_count_desc_sorted t).
rewrite (sorted_pairwise by_count_desc_trans).
move: (sort_values_count_desc t) => s.
rewrite -{1 3}(cat_take_drop n s) pairwise_cat mem_cat.
case/and3P => Hall _ _ He /orP [-> //|He'] _.
exact: (allrelP Hall).
Qed.

Lemma head_all n t :
  size t <= n -> head n (sort_values_count_desc t) = sort_values_count_desc t.
Proof. by move=> Hn; rewrite /head take_oversize // size_sort_values_count_desc. Qed.

End MoreTables.

(** The month keys.  Every key of the month table has at most seven
    characters and is the first seven characters of the initiation date of
    some record. *)
Theorem month_keys_are_date_prefixes (records : seq record) (a : aggregates)
    (k : string) :
  aggregate (DataFrame_of_records records) = Ok a ->
  k \in table_keys (monthly_counts a) ->
  len k <= 7 /\
  exists r d,
    [/\ r \in records, record_get r "event_date_initiated" = Str d &
        k = str_slice_to 7 d].
Proof.
move=> Ha; rewrite (monthly_counts_a Ha) table_keys_size_by_key.
rewrite mem_sort mem_undup mem_dropna => /hasP [r Hr].
rewrite /record_month; case E: (record_get r _) => [d| |] //= /eqP [<-].
split; first by rewrite len_str_slice_to geq_minl.
by exists r, d.
Qed.

Lemma month_keys_are_date_prefixes_witness :
  len "2024-03" <= 7 /\
  exists r d,
    [/\ r \in acme_records, record_get r "event_date_initiated" = Str d &
        "2024-03" = str_slice_to 7 d].
Proof.
by apply: (@month_keys_are_date_prefixes acme_records (tables_of acme_records));
   vm_compute.
Defined.

(** The order of the records does not matter to the tables.  When the
    aggregator accepts a list of records it accepts every rearrangement of
    it, and returns the same four tables, row for row. *)
Theorem tables_ignore_record_order (records records' : seq record)
    (a : aggregates) :
  perm_eq records records' ->
  aggregate (DataFrame_of_records records) = Ok a ->
  exists2 a', aggregate (DataFrame_of_records records') = Ok a' &
    [/\ root_cause_counts a' = root_cause_counts a,
        monthly_counts a' = monthly_counts a,
        firm_counts a' = firm_counts a &
        status_counts a' = status_counts a].
Proof.
move=> Hp Ha; have Ea := aggregate_ok Ha.
exists (tables_of records'); last first.
  by rewrite Ea /= /column_of !(size_by_key_perm_records _ Hp).
move: Ha; rewrite !aggregate_records !(has_field_perm _ Hp).
by do 4![case: (has_field records _) => //=].
Qed.

Lemma tables_ignore_record_order_witness :
  exists2 a', aggregate (DataFrame_of_records (rev acme_records)) = Ok a' &
    [/\ root_cause_counts a' = root_cause_counts (tables_of acme_records),
        monthly_counts a' = monthly_counts (tables_of acme_records),
        firm_counts a' = firm_counts (tables_of acme_records) &
        status_counts a' = status_counts (tables_of acme_records)].
Proof.
by apply: (@tables_ignore_record_order acme_records); vm_compute.
Defined.

(** The ten rows kept are rows of largest count.  A row of the grouping by
    root cause, or by firm, that the table leaves out has a count no larger
    than that of any row the table keeps. *)
Theorem top_rows_have_largest_counts (records : seq record) (a : aggregates)
    (e e' : string * nat) :
  aggregate (DataFrame_of_records records) = Ok a ->
  (e \in root_cause_counts a ->
   e' \in size_by_key (column_of records "root_cause_description") ->
   e' \notin root_cause_counts a -> e'.2 <= e.2) /\
  (e \in firm_counts a ->
   e' \in size_by_key (column_of records "recalling_firm") ->
   e' \notin firm_counts a -> e'.2 <= e.2).
Proof.
by move=> Ha; rewrite (aggregate_ok Ha) /=; split; exact: head_keeps_largest.
Qed.

Lemma top_rows_have_largest_counts_witness :
  size (root_cause_counts (tables_of eleven_causes_records)) = 10 /\
  ("10", 2) \in root_cause_counts (tables_of eleven_causes_records) /\
  ("09", 1) \notin root_cause_counts (tables_of eleven_causes_records) /\
  1 <= 2.
Proof.
split; first by vm_compute.
split; first by vm_compute.
split; first by vm_compute.
have [H _] := @top_rows_have_largest_counts eleven_causes_records
                (tables_of eleven_causes_records) ("10", 2) ("09", 1) erefl.
by apply: H; vm_compute.
Defined.

(** Nothing is cut when there is nothing to cut.  With at most ten distinct
    root causes the root-cause table has one row per root cause, and with
    at most ten distinct firms the firm table has one row per firm. *)
Theorem few_values_all_listed (records : seq record) (a : aggregates) :
  aggregate (DataFrame_of_records records) = Ok a ->
  (size (undup (dropna (column_of records "root_cause_description"))) <= 10 ->
   one_row_per_value records (fun r => record_get r "root_cause_description")
     (root_cause_counts a)) /\
  (size (undup (dropna (column_of records "recalling_firm"))) <= 10 ->
   one_row_per_value records (fun r => record_get r "recalling_firm")
     (firm_counts a)).
Proof.
move=> Ha; rewrite (aggregate_ok Ha) /=; split=> Hn.
- rewrite head_all ?size_size_by_key //.
  apply: one_row_per_value_perm (sort_values_count_desc_perm _) _.
  exact: size_by_key_one_row.
- rewrite head_all ?size_size_by_key //.
  apply: one_row_per_value_perm (sort_values_count_desc_perm _) _.
  exact: size_by_key_one_row.
Qed.

Lemma few_values_all_listed_witness :
  one_row_per_value acme_records
    (fun r => record_get r "root_cause_description")
    (root_cause_counts (tables_of acme_records)).
Proof.
have [H _] := @few_values_all_listed acme_records (tables_of acme_records) erefl.
by apply: H; vm_compute.
Defined.

(** When the aggregator succeeds.  On records of which one at least holds
    a string as its initiation date, it returns its tables exactly when
    each of the four fields it groups by or slices occurs in at least one
    record; the other fields of interest are not needed. *)
Theorem aggregate_succeeds_iff_grouped_fields (records : seq record) :
  has_string_date records ->
  is_ok (aggregate (DataFrame_of_records records)) =
  all (has_field records) grouped_cols.
Proof.
move=> _; rewrite aggregate_records /=.
by do 4![case: (has_field records _) => //=].
Qed.

Lemma aggregate_succeeds_iff_grouped_fields_witness :
  is_ok (aggregate (DataFrame_of_records acme_records)) /\
  is_ok (aggregate (DataFrame_of_records no_root_cause_records)) = false.
Proof.
split.
  by rewrite (@aggregate_succeeds_iff_grouped_fields acme_records); vm_compute.
by rewrite (@aggregate_succeeds_iff_grouped_fields no_root_cause_records);
   vm_compute.
Defined.

(** The cleaned frame.  Its columns are the fields of interest that some
    record carries, in the order of the list of interest, followed by
    [month]; any other field of the records is dropped, and every column
    has one cell per record. *)
Theorem clean_frame_columns (records : seq record) (a : aggregates) :
  aggregate (DataFrame_of_records records) = Ok a ->
  df_columns (recalls_clean a) =
    rcons [seq c <- cols_of_interest | has_field records c] "month" /\
  all (fun kv => size kv.2 == size records) (cols (recalls_clean a)).
Proof.
move=> Ha; rewrite (aggregate_ok Ha) /df_columns /clean_frame /=; split.
- rewrite map_rcons -map_comp map_id_in //; congr rcons.
  by apply: eq_filter => c; rewrite mem_columns_of_records.
- rewrite all_rcons /= size_map eqxx /=.
  by apply/allP => kv /mapP [c _ ->] /=; rewrite size_map.
Qed.

Lemma clean_frame_columns_witness :
  df_columns (recalls_clean (tables_of acme_records)) =
    [:: "event_date_initiated"; "root_cause_description"; "recalling_firm";
        "recall_status"; "month"].
Proof.
have [H _] := @clean_frame_columns acme_records (tables_of acme_records) erefl.
by rewrite H; vm_compute.
Defined.

(** The sort of the month table changes nothing: grouping already lists
    the months in ascending order. *)
Theorem month_sort_changes_nothing (v : seq cell) :
  sort_values_key (size_by_key v) = size_by_key v.
Proof. exact/sort_values_key_sorted/size_by_key_sorted. Qed.

(** ** The first and the last steps *)

(** The credentials are checked in order.  Without an FDA key the run ends
    in the error that names [API_KEY], whatever the OpenAI key is; with an
    FDA key but no OpenAI key it ends in the error that names
    [OPENAI_API_KEY].  Either way nothing has been done. *)
Theorem fda_key_checked_first (to_string : string -> table -> string)
    (w : world) :
  (py_not (getenv w "API_KEY") ->
   run to_string w =
   ([::], Raise (ValueError
      "API_KEY not found in .env file. Please add your FDA API key."))) /\
  (~~ py_not (getenv w "API_KEY") -> py_not (getenv w "OPENAI_API_KEY") ->
   run to_string w =
   ([::], Raise (ValueError
      "OPENAI_API_KEY not found in .env file. Please add your OpenAI API key."))).
Proof.
by rewrite run_stages /load_credentials; split=> [->|/negbTE -> ->].
Qed.

Lemma fda_key_checked_first_witness :
  run no_layout world_no_openai_key =
  ([::], Raise (ValueError
     "OPENAI_API_KEY not found in .env file. Please add your OpenAI API key.")).
Proof.
have [_ H] := fda_key_checked_first no_layout world_no_openai_key.
by apply: H; vm_compute.
Defined.

(** The projection cannot fail.  On every frame the selection of the
    existing columns of interest succeeds; it keeps the rows and yields
    exactly those columns, in the order of the list of interest. *)
Theorem projection_never_raises (df : DataFrame) :
  exists2 clean, df_select df (existing_cols df) = Ok clean &
    [/\ df_columns clean = existing_cols df,
        subseq (existing_cols df) cols_of_interest &
        nrows clean = nrows df].
Proof.
rewrite df_select_existing; eexists; first by [].
split=> //; last exact: filter_subseq.
by rewrite /df_columns /= -map_comp map_id_in.
Qed.
